(** * matcha: track end points ([src/matcha/track_point.py])

    A shallow embedding of the [TrackPoint] class: the region enumeration,
    the drift direction derived from the x-position when a point is built,
    the accessors, and [shift_position_x].

    Python floats are IEEE binary64 numbers; they are modelled by Rocq's
    primitive floats, which are binary64 as well, so every literal and every
    arithmetic result below is bit for bit what the interpreter computes.
    The attribute types follow the class docstring: [track_id] is an int,
    positions and directions are floats, [drift_direction] is an int or
    [None]; [t0] is a float and [drift_velocity] a float or [None] (the
    value of the module's [V_DRIFT]). *)

From Stdlib Require Import ZArith List Bool String Lia Floats.
Import ListNotations.

Set Warnings "-inexact-float".

(** ** Exceptions and fallible results *)

Inductive exn : Set := TypeError | ValueError | OverflowError.

Inductive result (A : Type) : Type :=
| Ok (a : A)
| Raise (e : exn).

Arguments Ok {A} a.
Arguments Raise {A} e.

Definition rbind {A B : Type} (r : result A) (k : A -> result B) : result B :=
  match r with
  | Ok a => k a
  | Raise e => Raise e
  end.

Notation "'let?' x ':=' r 'in' k" := (rbind r (fun x => k))
  (at level 10, x name, r at level 100, k at level 200).

(** ** The arithmetic of the interpreter, on the operand types that occur *)

Module Py.

(** Conversion of an int operand to a double ([PyLong_AsDouble]): the
    nearest binary64 value, ties to even; an int too large for a double
    raises [OverflowError]. *)
Definition int_to_float (n : Z) : result float :=
  match binary_normalize prec emax n 0 false with
  | S754_infinity _ => Raise OverflowError
  | f => Ok (SF2Prim f)
  end.

(** [a * b] where [a] is a float or [None] and [b] is a float. *)
Definition mul_optfloat_float (a : option float) (b : float) : result float :=
  match a with
  | None => Raise TypeError
  | Some x => Ok (x * b)%float
  end.

(** [a * d] where [a] is a float and [d] is an int or [None]. *)
Definition mul_float_optint (a : float) (d : option Z) : result float :=
  match d with
  | None => Raise TypeError
  | Some n => let? x := int_to_float n in Ok (a * x)%float
  end.

End Py.

(** ** NumPy *)

Module Numpy.

(** [np.digitize(x, bins)] for a scalar [x] and ascending [bins], with the
    default [right=False]: the index [i] with [bins[i-1] <= x < bins[i]],
    that is, the index of the first bin edge strictly greater than [x],
    and [len(bins)] when there is none (so also for a NaN, which compares
    below nothing). *)
Fixpoint digitize (x : float) (bins : list float) : Z :=
  match bins with
  | [] => 0
  | b :: bins' => if (x <? b)%float then 0 else 1 + digitize x bins'
  end.

(** Whether [bins] is ascending, the case [digitize] above covers. *)
Fixpoint ascending (bins : list float) : bool :=
  match bins with
  | [] => true
  | b :: bins' =>
      match bins' with
      | [] => true
      | c :: _ => (b <=? c)%float && ascending bins'
      end
  end.

End Numpy.

(** ** Module constants *)

Definition TPC_X_BOUNDS : list float :=
  [-358.49; -210.215; -61.94; 61.94; 210.215; 358.49]%float.

(** ** [class TPCRegion(Enum)] *)

Inductive TPCRegion : Set :=
| WestOfWW
| WW
| WE
| BetweenTPCs
| EW
| EE
| EastOfEE.

Module Region.

Definition value (r : TPCRegion) : Z :=
  match r with
  | WestOfWW => 0
  | WW => 1
  | WE => 2
  | BetweenTPCs => 3
  | EW => 4
  | EE => 5
  | EastOfEE => 6
  end.

Definition name (r : TPCRegion) : string :=
  match r with
  | WestOfWW => "WestOfWW"
  | WW => "WW"
  | WE => "WE"
  | BetweenTPCs => "BetweenTPCs"
  | EW => "EW"
  | EE => "EE"
  | EastOfEE => "EastOfEE"
  end.

(** [TPCRegion(v)]: the member whose value is [v]; [ValueError] when no
    member has that value. *)
Definition of_value (v : Z) : result TPCRegion :=
  match v with
  | 0 => Ok WestOfWW
  | 1 => Ok WW
  | 2 => Ok WE
  | 3 => Ok BetweenTPCs
  | 4 => Ok EW
  | 5 => Ok EE
  | 6 => Ok EastOfEE
  | _ => Raise ValueError
  end%Z.

End Region.

(** ** [class TrackPoint] *)

Record TrackPoint : Set := mkTrackPoint {
  _track_id : Z;
  _position_x : float;
  _position_y : float;
  _position_z : float;
  _direction_x : float;
  _direction_y : float;
  _direction_z : float;
  _drift_direction : option Z
}.

(** The region a point lies in: the first two lines of
    [_get_drift_direction], before [.name] is taken. *)
Definition point_region (point_x : float) : result TPCRegion :=
  Region.of_value (Numpy.digitize point_x TPC_X_BOUNDS).

(** [TrackPoint._get_drift_direction]; [self] is not read by the method. *)
Definition _get_drift_direction (point_x : float) : result (option Z) :=
  let? r := point_region point_x in
  let region := Region.name r in
  if (region =? "WW")%string || (region =? "EW")%string then Ok (Some 1%Z)
  else if (region =? "EE")%string || (region =? "WE")%string then Ok (Some (-1)%Z)
  else Ok None.

(** [TrackPoint.__init__] *)
Definition __init__ (track_id : Z)
    (position_x position_y position_z : float)
    (direction_x direction_y direction_z : float) : result TrackPoint :=
  let? d := _get_drift_direction position_x in
  Ok {| _track_id := track_id;
        _position_x := position_x;
        _position_y := position_y;
        _position_z := position_z;
        _direction_x := direction_x;
        _direction_y := direction_y;
        _direction_z := direction_z;
        _drift_direction := d |}.

(** *** Methods as computations on the object

    A method runs on the receiver [self] and returns a result together with
    the receiver as the method left it; after an exception the receiver is
    as it was when the exception was raised. *)

Definition M (A : Type) : Type := TrackPoint -> result A * TrackPoint.

Definition ret {A : Type} (a : A) : M A := fun self => (Ok a, self).

Definition bind {A B : Type} (c : M A) (k : A -> M B) : M B :=
  fun self =>
    match c self with
    | (Ok a, self') => k a self'
    | (Raise e, self') => (Raise e, self')
    end.

Definition lift {A : Type} (r : result A) : M A := fun self => (r, self).

Notation "x <- c ;; k" := (bind c (fun x => k))
  (at level 61, c at next level, right associativity).
Notation "c ;;; k" := (bind c (fun _ => k))
  (at level 61, right associativity).

(** *** Getters and setters (the [@property] pairs) *)

Module Get.
Definition track_id : M Z := fun self => (Ok (_track_id self), self).
Definition position_x : M float := fun self => (Ok (_position_x self), self).
Definition position_y : M float := fun self => (Ok (_position_y self), self).
Definition position_z : M float := fun self => (Ok (_position_z self), self).
Definition direction_x : M float := fun self => (Ok (_direction_x self), self).
Definition direction_y : M float := fun self => (Ok (_direction_y self), self).
Definition direction_z : M float := fun self => (Ok (_direction_z self), self).
Definition drift_direction : M (option Z) :=
  fun self => (Ok (_drift_direction self), self).
End Get.

(** The object after the assignment [self._position_x = value]. *)
Definition with_position_x (self : TrackPoint) (value : float) : TrackPoint :=
  mkTrackPoint (_track_id self) value (_position_y self) (_position_z self)
    (_direction_x self) (_direction_y self) (_direction_z self)
    (_drift_direction self).

Module Set_.
Definition track_id (value : Z) : M unit := fun self =>
  (Ok tt, mkTrackPoint value (_position_x self) (_position_y self)
            (_position_z self) (_direction_x self) (_direction_y self)
            (_direction_z self) (_drift_direction self)).
Definition position_x (value : float) : M unit := fun self =>
  (Ok tt, with_position_x self value).
Definition position_y (value : float) : M unit := fun self =>
  (Ok tt, mkTrackPoint (_track_id self) (_position_x self) value
            (_position_z self) (_direction_x self) (_direction_y self)
            (_direction_z self) (_drift_direction self)).
Definition position_z (value : float) : M unit := fun self =>
  (Ok tt, mkTrackPoint (_track_id self) (_position_x self) (_position_y self)
            value (_direction_x self) (_direction_y self)
            (_direction_z self) (_drift_direction self)).
Definition direction_x (value : float) : M unit := fun self =>
  (Ok tt, mkTrackPoint (_track_id self) (_position_x self) (_position_y self)
            (_position_z self) value (_direction_y self)
            (_direction_z self) (_drift_direction self)).
Definition direction_y (value : float) : M unit := fun self =>
  (Ok tt, mkTrackPoint (_track_id self) (_position_x self) (_position_y self)
            (_position_z self) (_direction_x self) value
            (_direction_z self) (_drift_direction self)).
Definition direction_z (value : float) : M unit := fun self =>
  (Ok tt, mkTrackPoint (_track_id self) (_position_x self) (_position_y self)
            (_position_z self) (_direction_x self) (_direction_y self)
            value (_drift_direction self)).
Definition drift_direction (value : option Z) : M unit := fun self =>
  (Ok tt, mkTrackPoint (_track_id self) (_position_x self) (_position_y self)
            (_position_z self) (_direction_x self) (_direction_y self)
            (_direction_z self) value).
End Set_.

(** *** [TrackPoint.shift_position_x]

    [drift_velocity * t0 * drift_direction] groups to the left: the product
    of velocity and [t0] is formed first, then multiplied by the direction. *)
Definition shift_position_x (t0 : float) (drift_velocity : option float) : M unit :=
  position_x <- Get.position_x ;;
  drift_direction <- Get.drift_direction ;;
  vt <- lift (Py.mul_optfloat_float drift_velocity t0) ;;
  shift <- lift (Py.mul_float_optint vt drift_direction) ;;
  let shifted_x := (position_x + shift)%float in
  Set_.position_x shifted_x.

(** ** The module's globals and the default of [drift_velocity]

    [V_DRIFT] is a module global that a host application may rebind.  The
    default of the parameter [drift_velocity=V_DRIFT] is evaluated once, when
    the [def] statement runs during import, and stored with the function. *)

Record module_state : Set := mkModule {
  V_DRIFT : option float;
  shift_position_x_default : option float
}.

(** Importing the module: [V_DRIFT = None] runs, later the class body binds
    the default to the value [V_DRIFT] has at that moment. *)
Definition import_module : module_state :=
  let v_drift := None in
  {| V_DRIFT := v_drift; shift_position_x_default := v_drift |}.

(** [track_point.V_DRIFT = v], executed by a host application. *)
Definition rebind_V_DRIFT (m : module_state) (v : option float) : module_state :=
  {| V_DRIFT := v; shift_position_x_default := shift_position_x_default m |}.

(** The module after a sequence of rebindings of [V_DRIFT]. *)
Definition configured (vs : list (option float)) : module_state :=
  fold_left rebind_V_DRIFT vs import_module.

(** A call [point.shift_position_x(t0)] or
    [point.shift_position_x(t0, drift_velocity)]: an omitted argument takes
    the stored default. *)
Inductive argument (A : Type) : Type :=
| Omitted
| Given (a : A).

Arguments Omitted {A}.
Arguments Given {A} a.

Definition call_shift_position_x (m : module_state) (t0 : float)
    (drift_velocity : argument (option float)) : M unit :=
  shift_position_x t0
    match drift_velocity with
    | Given v => v
    | Omitted => shift_position_x_default m
    end.

(** Calls made one after the other on the same point, each with its own
    [t0] and drift velocity; the first exception ends the run. *)
Fixpoint shift_each (calls : list (float * float)) : M unit :=
  match calls with
  | [] => ret tt
  | (t0, v) :: calls' => shift_position_x t0 (Some v) ;;; shift_each calls'
  end.

(** The drift direction of each region, as the branches of
    [_get_drift_direction] assign it: [+1] in the west-drifting volumes,
    [-1] in the east-drifting ones, [None] outside the TPCs. *)
Definition region_drift_direction (r : TPCRegion) : option Z :=
  match r with
  | WW | EW => Some 1%Z
  | EE | WE => Some (-1)%Z
  | WestOfWW | BetweenTPCs | EastOfEE => None
  end.

(** ** The module global read by the classification

    [TPC_X_BOUNDS] is a module global like [V_DRIFT]: the body of
    [_get_drift_direction] looks the name up each time it runs, and it runs
    as a method on a receiver.  The computation below is the method with
    both made explicit: the globals the call finds and the receiver it runs
    on.  As for [Numpy.digitize], the list is taken to be ascending. *)

Record globals : Set := mkGlobals {
  globals_V_DRIFT : option float;
  globals_TPC_X_BOUNDS : list float
}.

Definition _get_drift_direction_call (g : globals) (point_x : float)
    : M (option Z) :=
  fun self =>
    (let? r := Region.of_value
                 (Numpy.digitize point_x (globals_TPC_X_BOUNDS g)) in
     let region := Region.name r in
     if (region =? "WW")%string || (region =? "EW")%string
     then Ok (Some 1%Z)
     else if (region =? "EE")%string || (region =? "WE")%string
     then Ok (Some (-1)%Z)
     else Ok None,
     self).

(** * Properties *)

(** ** The order of binary64 numbers

    The comparisons of primitive floats are specified by those of
    [spec_float]; the facts below are proved there by cases on the two or
    three numbers, and hold for infinities and for NaN as well (a
    comparison with NaN is false). *)

Module FloatOrder.

Ltac split_compare :=
  repeat match goal with
    | |- context [Z.compare ?a ?b] =>
        destruct (Z.compare_spec a b); subst
    | |- context [Pos.compare ?a ?b] =>
        destruct (Pos.compare_spec a b); subst
    end.

Ltac by_cases :=
  repeat match goal with
    | x : spec_float |- _ => destruct x as [[|]|[|]| |[|] ? ?]
    end;
  cbn [SFcompare]; fold Pos.compare;
  try discriminate; try reflexivity;
  split_compare; cbn [CompOpp]; intros;
  try discriminate; try reflexivity; try lia.

Lemma SFle_trans (a b c : spec_float) :
  SFleb a b = true -> SFleb b c = true -> SFleb a c = true.
Proof. unfold SFleb. by_cases. Qed.

Lemma SFlt_le (a b : spec_float) :
  SFltb a b = true -> SFleb a b = true.
Proof. unfold SFltb, SFleb. by_cases. Qed.

Lemma SFle_not_lt (a b : spec_float) :
  SFleb a b = true -> SFltb b a = false.
Proof. unfold SFltb, SFleb. by_cases. Qed.

Local Open Scope float_scope.

Lemma le_trans (a b c : float) :
  (a <=? b) = true -> (b <=? c) = true -> (a <=? c) = true.
Proof. rewrite !leb_spec. apply SFle_trans. Qed.

Lemma lt_le (a b : float) : (a <? b) = true -> (a <=? b) = true.
Proof. rewrite ltb_spec, leb_spec. apply SFlt_le. Qed.

Lemma le_not_lt (a b : float) : (a <=? b) = true -> (b <? a) = false.
Proof. rewrite ltb_spec, leb_spec. apply SFle_not_lt. Qed.

End FloatOrder.

(** ** [digitize] on ascending bin edges *)

Section Digitize.

Local Open Scope float_scope.
Local Open Scope list_scope.
Import Numpy.

Lemma ascending_tail (b : float) (bins : list float) :
  ascending (b :: bins) = true -> ascending bins = true.
Proof.
  destruct bins as [|c bins]; [reflexivity|].
  cbn [ascending]. intros H. apply andb_prop in H. apply H.
Qed.

(** Every edge before [a] in an ascending list is at most [a]. *)
Lemma ascending_prefix_le (pre : list float) (a : float) (post : list float) :
  ascending (pre ++ a :: post) = true ->
  forall c, In c pre -> (c <=? a) = true.
Proof.
  induction pre as [|p pre IH]; intros Hasc c Hin; [destruct Hin|].
  assert (Hp : (p <=? a) = true).
  { destruct pre as [|q pre].
    - cbn in Hasc. apply andb_prop in Hasc. apply Hasc.
    - pose proof (ascending_tail _ _ Hasc) as Ht.
      cbn [app ascending] in Hasc. apply andb_prop in Hasc.
      apply FloatOrder.le_trans with q; [apply Hasc|].
      apply (IH Ht). left; reflexivity. }
  destruct Hin as [<-|Hin]; [exact Hp|].
  apply IH; [exact (ascending_tail _ _ Hasc)|exact Hin].
Qed.

(** Edges that [x] is not below are counted and skipped. *)
Lemma digitize_skip (x : float) (pre post : list float) :
  (forall c, In c pre -> (x <? c) = false) ->
  digitize x (pre ++ post) = (Z.of_nat (List.length pre) + digitize x post)%Z.
Proof.
  induction pre as [|p pre IH]; intros H; [reflexivity|].
  cbn [app digitize List.length]. rewrite (H p (or_introl eq_refl)).
  rewrite IH by (intros c Hc; apply H; right; exact Hc). lia.
Qed.

Lemma digitize_below (x b : float) (post : list float) :
  (x <? b) = true -> digitize x (b :: post) = 0%Z.
Proof. intros H. cbn [digitize]. rewrite H. reflexivity. Qed.

(** The documented contract: [bins[i-1] <= x < bins[i]] gives [i]. *)
Lemma digitize_between (x a b : float) (pre post : list float) :
  ascending (pre ++ a :: b :: post) = true ->
  (a <=? x) = true -> (x <? b) = true ->
  digitize x (pre ++ a :: b :: post) = (Z.of_nat (List.length pre) + 1)%Z.
Proof.
  intros Hasc Ha Hb.
  change (pre ++ a :: b :: post) with (pre ++ [a] ++ b :: post).
  rewrite app_assoc, digitize_skip.
  - rewrite (digitize_below _ _ _ Hb), length_app. cbn [List.length]. lia.
  - intros c Hc. apply FloatOrder.le_not_lt.
    apply in_app_or in Hc. destruct Hc as [Hc|[<-|[]]]; [|exact Ha].
    apply FloatOrder.le_trans with a; [|exact Ha].
    exact (ascending_prefix_le _ _ _ Hasc c Hc).
Qed.

Lemma digitize_above (x a : float) (pre : list float) :
  ascending (pre ++ [a]) = true ->
  (a <=? x) = true ->
  digitize x (pre ++ [a]) = (Z.of_nat (List.length pre) + 1)%Z.
Proof.
  intros Hasc Ha.
  rewrite <- (app_nil_r (pre ++ [a])), digitize_skip.
  - rewrite length_app. cbn [List.length digitize]. lia.
  - intros c Hc. apply FloatOrder.le_not_lt.
    apply in_app_or in Hc. destruct Hc as [Hc|[<-|[]]]; [|exact Ha].
    apply FloatOrder.le_trans with a; [|exact Ha].
    exact (ascending_prefix_le _ _ _ Hasc c Hc).
Qed.

Lemma digitize_range (x : float) (bins : list float) :
  (0 <= digitize x bins <= Z.of_nat (List.length bins))%Z.
Proof.
  induction bins as [|b bins IH]; cbn [digitize List.length]; [lia|].
  destruct (x <? b); lia.
Qed.

End Digitize.

(** ** Regions of the detector *)

Section Regions.

Local Open Scope float_scope.

Lemma TPC_X_BOUNDS_ascending : Numpy.ascending TPC_X_BOUNDS = true.
Proof. reflexivity. Qed.

(** Rewrites with one of the bin lemmas at a given split of the edges. *)
Ltac use_bin lem :=
  let E := fresh "E" in
  epose proof lem as E;
  cbn [app List.length] in E;
  rewrite E by (reflexivity || assumption);
  reflexivity.

(** Left-inclusive bins: each region starts at its lower edge. *)
Lemma point_region_bins (x : float) :
  ((x <? -358.49) = true -> point_region x = Ok WestOfWW) /\
  ((-358.49 <=? x) = true -> (x <? -210.215) = true -> point_region x = Ok WW) /\
  ((-210.215 <=? x) = true -> (x <? -61.94) = true -> point_region x = Ok WE) /\
  ((-61.94 <=? x) = true -> (x <? 61.94) = true -> point_region x = Ok BetweenTPCs) /\
  ((61.94 <=? x) = true -> (x <? 210.215) = true -> point_region x = Ok EW) /\
  ((210.215 <=? x) = true -> (x <? 358.49) = true -> point_region x = Ok EE) /\
  ((358.49 <=? x) = true -> point_region x = Ok EastOfEE).
Proof.
  unfold point_region, TPC_X_BOUNDS.
  repeat split; intros.
  - rewrite digitize_below; [reflexivity|assumption].
  - use_bin (digitize_between x (-358.49) (-210.215) []).
  - use_bin (digitize_between x (-210.215) (-61.94) [-358.49]).
  - use_bin (digitize_between x (-61.94) 61.94 [-358.49; -210.215]).
  - use_bin (digitize_between x 61.94 210.215 [-358.49; -210.215; -61.94]).
  - use_bin (digitize_between x 210.215 358.49
               [-358.49; -210.215; -61.94; 61.94]).
  - use_bin (digitize_above x 358.49
               [-358.49; -210.215; -61.94; 61.94; 210.215]).
Qed.

End Regions.

(** ** Classification when a point is built *)

Section Classification.

Local Open Scope float_scope.

Lemma point_region_total (x : float) : exists r, point_region x = Ok r.
Proof.
  unfold point_region.
  pose proof (digitize_range x TPC_X_BOUNDS) as H.
  cbn [List.length TPC_X_BOUNDS] in H.
  set (i := Numpy.digitize x TPC_X_BOUNDS) in *.
  assert (Hi : (i = 0 \/ i = 1 \/ i = 2 \/ i = 3 \/ i = 4 \/ i = 5 \/ i = 6)%Z)
    by lia.
  destruct Hi as [->|[->|[->|[->|[->|[->| ->]]]]]]; eexists; reflexivity.
Qed.

Lemma _get_drift_direction_of_region (x : float) (r : TPCRegion) :
  point_region x = Ok r ->
  _get_drift_direction x = Ok (region_drift_direction r).
Proof.
  intros H. unfold _get_drift_direction. rewrite H.
  destruct r; reflexivity.
Qed.

Lemma __init___of_region (r : TPCRegion) (track_id : Z)
    (x y z dx dy dz : float) :
  point_region x = Ok r ->
  __init__ track_id x y z dx dy dz =
    Ok (mkTrackPoint track_id x y z dx dy dz (region_drift_direction r)).
Proof.
  intros H. unfold __init__.
  rewrite (_get_drift_direction_of_region x r H). reflexivity.
Qed.

(** C1: the drift direction a point gets at construction follows the
    seven regions cut by the six boundaries: no direction below -358.49,
    above 358.49 and between -61.94 and 61.94; [+1] between -358.49 and
    -210.215 and between 61.94 and 210.215; [-1] between -210.215 and
    -61.94 and between 210.215 and 358.49. *)
Theorem drift_direction_seven_regions (track_id : Z) (x y z dx dy dz : float) :
  let built d :=
    __init__ track_id x y z dx dy dz =
      Ok (mkTrackPoint track_id x y z dx dy dz d) in
  ((x <? -358.49) = true -> built None) /\
  ((-358.49 <? x) = true -> (x <? -210.215) = true -> built (Some 1%Z)) /\
  ((-210.215 <? x) = true -> (x <? -61.94) = true -> built (Some (-1)%Z)) /\
  ((-61.94 <? x) = true -> (x <? 61.94) = true -> built None) /\
  ((61.94 <? x) = true -> (x <? 210.215) = true -> built (Some 1%Z)) /\
  ((210.215 <? x) = true -> (x <? 358.49) = true -> built (Some (-1)%Z)) /\
  ((358.49 <? x) = true -> built None).
Proof.
  cbv zeta.
  destruct (point_region_bins x) as (H0 & H1 & H2 & H3 & H4 & H5 & H6).
  repeat split; intros;
    match goal with
    | |- _ = Ok (mkTrackPoint _ _ _ _ _ _ _ ?d) =>
        first
          [ apply (__init___of_region WestOfWW); apply H0; assumption
          | apply (__init___of_region WW); apply H1;
              [apply FloatOrder.lt_le|]; assumption
          | apply (__init___of_region WE); apply H2;
              [apply FloatOrder.lt_le|]; assumption
          | apply (__init___of_region BetweenTPCs); apply H3;
              [apply FloatOrder.lt_le|]; assumption
          | apply (__init___of_region EW); apply H4;
              [apply FloatOrder.lt_le|]; assumption
          | apply (__init___of_region EE); apply H5;
              [apply FloatOrder.lt_le|]; assumption
          | apply (__init___of_region EastOfEE); apply H6;
              apply FloatOrder.lt_le; assumption ]
    end.
Qed.

Lemma drift_direction_seven_regions_witness :
  __init__ 7 (-300) 10 20 0 0 1 =
    Ok (mkTrackPoint 7 (-300) 10 20 0 0 1 (Some 1%Z)) /\
  __init__ 7 300 10 20 0 0 1 =
    Ok (mkTrackPoint 7 300 10 20 0 0 1 (Some (-1)%Z)) /\
  __init__ 7 0 10 20 0 0 1 = Ok (mkTrackPoint 7 0 10 20 0 0 1 None).
Proof.
  split; [|split].
  - destruct (drift_direction_seven_regions 7 (-300) 10 20 0 0 1)
      as (_ & H & _).
    apply H; reflexivity.
  - destruct (drift_direction_seven_regions 7 300 10 20 0 0 1)
      as (_ & _ & _ & _ & _ & H & _).
    apply H; reflexivity.
  - destruct (drift_direction_seven_regions 7 0 10 20 0 0 1)
      as (_ & _ & _ & H & _).
    apply H; reflexivity.
Defined.

(** C3: an x-coordinate equal to one of the six boundaries lies in the
    region that begins there, and a point built at it gets that region's
    drift direction: -358.49 is in WW ([+1]), -210.215 in WE ([-1]),
    -61.94 between the TPCs (none), 61.94 in EW ([+1]), 210.215 in EE
    ([-1]) and 358.49 east of EE (none). *)
Theorem boundary_starts_its_region (track_id : Z) (y z dx dy dz : float) :
  let at_boundary b r d :=
    point_region b = Ok r /\
    __init__ track_id b y z dx dy dz =
      Ok (mkTrackPoint track_id b y z dx dy dz d) in
  at_boundary (-358.49) WW (Some 1%Z) /\
  at_boundary (-210.215) WE (Some (-1)%Z) /\
  at_boundary (-61.94) BetweenTPCs None /\
  at_boundary 61.94 EW (Some 1%Z) /\
  at_boundary 210.215 EE (Some (-1)%Z) /\
  at_boundary 358.49 EastOfEE None.
Proof.
  cbv zeta. repeat split; reflexivity.
Qed.

(** With the fixed list in the global, a call computes what
    [_get_drift_direction] does and leaves the receiver alone. *)
Lemma _get_drift_direction_call_fixed (g : globals) (x : float)
    (self : TrackPoint) :
  globals_TPC_X_BOUNDS g = TPC_X_BOUNDS ->
  _get_drift_direction_call g x self = (_get_drift_direction x, self).
Proof.
  intros H. unfold _get_drift_direction_call, _get_drift_direction,
    point_region, rbind.
  rewrite H. reflexivity.
Qed.

(** C9: classification is a function of the x-coordinate and the boundary
    list alone.  While [TPC_X_BOUNDS] holds the fixed list, every x has one
    region and one drift direction, and that direction is what every call
    of the classifier returns, on whatever receiver and whatever [V_DRIFT]
    holds, without changing the receiver, and what any two points built at
    x get, whatever their other attributes. *)
Theorem classification_depends_on_position_only (x : float)
    (g1 g2 : globals) (self1 self2 : TrackPoint)
    (track_id1 track_id2 : Z)
    (y1 z1 dx1 dy1 dz1 y2 z2 dx2 dy2 dz2 : float) :
  globals_TPC_X_BOUNDS g1 = TPC_X_BOUNDS ->
  globals_TPC_X_BOUNDS g2 = TPC_X_BOUNDS ->
  exists r d,
    point_region x = Ok r /\
    _get_drift_direction_call g1 x self1 = (Ok d, self1) /\
    _get_drift_direction_call g2 x self2 = (Ok d, self2) /\
    __init__ track_id1 x y1 z1 dx1 dy1 dz1 =
      Ok (mkTrackPoint track_id1 x y1 z1 dx1 dy1 dz1 d) /\
    __init__ track_id2 x y2 z2 dx2 dy2 dz2 =
      Ok (mkTrackPoint track_id2 x y2 z2 dx2 dy2 dz2 d).
Proof.
  intros H1 H2.
  destruct (point_region_total x) as [r Hr].
  exists r, (region_drift_direction r).
  split; [exact Hr|].
  rewrite (_get_drift_direction_call_fixed g1 x self1 H1).
  rewrite (_get_drift_direction_call_fixed g2 x self2 H2).
  rewrite (_get_drift_direction_of_region x r Hr).
  split; [reflexivity|]. split; [reflexivity|].
  split; apply __init___of_region; exact Hr.
Qed.

Lemma classification_depends_on_position_only_witness :
  exists r d,
    point_region 100 = Ok r /\
    _get_drift_direction_call (mkGlobals None TPC_X_BOUNDS) 100
      (mkTrackPoint 4 0 5 6 0 0 1 None) =
      (Ok d, mkTrackPoint 4 0 5 6 0 0 1 None) /\
    _get_drift_direction_call (mkGlobals (Some 0.16) TPC_X_BOUNDS) 100
      (mkTrackPoint 9 250 1 2 1 0 0 (Some (-1)%Z)) =
      (Ok d, mkTrackPoint 9 250 1 2 1 0 0 (Some (-1)%Z)) /\
    __init__ 4 100 5 6 0 0 1 = Ok (mkTrackPoint 4 100 5 6 0 0 1 d) /\
    __init__ 9 100 1 2 1 0 0 = Ok (mkTrackPoint 9 100 1 2 1 0 0 d).
Proof.
  apply (classification_depends_on_position_only 100
           (mkGlobals None TPC_X_BOUNDS)
           (mkGlobals (Some 0.16) TPC_X_BOUNDS)
           (mkTrackPoint 4 0 5 6 0 0 1 None)
           (mkTrackPoint 9 250 1 2 1 0 0 (Some (-1)%Z))
           4 9 5 6 0 0 1 1 2 1 0 0);
    reflexivity.
Defined.

End Classification.

(** ** Shifting a point along the drift direction *)

Section Shift.

Local Open Scope float_scope.

Lemma int_to_float_plus_one : Py.int_to_float 1 = Ok 1.
Proof. reflexivity. Qed.

Lemma int_to_float_minus_one : Py.int_to_float (-1) = Ok (-1).
Proof. reflexivity. Qed.

Lemma with_position_x_twice (self : TrackPoint) (a b : float) :
  with_position_x (with_position_x self a) b = with_position_x self b.
Proof. reflexivity. Qed.

Lemma with_position_x_same (self : TrackPoint) :
  with_position_x self (_position_x self) = self.
Proof. destruct self; reflexivity. Qed.

(** A shift on a point whose direction is the int [d], read as the
    double [f], with a velocity that is a float: the call returns and
    stores the shifted position. *)
Lemma shift_position_x_ok (self : TrackPoint) (t0 v : float) (d : Z) (f : float) :
  _drift_direction self = Some d ->
  Py.int_to_float d = Ok f ->
  shift_position_x t0 (Some v) self =
    (Ok tt, with_position_x self (_position_x self + v * t0 * f)).
Proof.
  intros Hd Hf.
  unfold shift_position_x, bind, lift, Get.position_x, Get.drift_direction,
    Set_.position_x, Py.mul_optfloat_float, Py.mul_float_optint.
  rewrite Hd. cbn [rbind]. rewrite Hf. reflexivity.
Qed.

(** A shift on a point without a drift direction raises, whatever the
    velocity, and leaves the point as it was. *)
Lemma shift_position_x_no_direction (self : TrackPoint) (t0 : float)
    (drift_velocity : option float) :
  _drift_direction self = None ->
  shift_position_x t0 drift_velocity self = (Raise TypeError, self).
Proof.
  intros Hd.
  unfold shift_position_x, bind, lift, Get.position_x, Get.drift_direction,
    Py.mul_optfloat_float, Py.mul_float_optint.
  rewrite Hd. destruct drift_velocity; reflexivity.
Qed.

(** A shift whose velocity is [None] raises and leaves the point as it
    was. *)
Lemma shift_position_x_no_velocity (self : TrackPoint) (t0 : float) :
  shift_position_x t0 None self = (Raise TypeError, self).
Proof. reflexivity. Qed.

(** Whatever a shift does, the point it leaves differs from the one it
    found in [position_x] at most. *)
Lemma shift_position_x_frame (self : TrackPoint) (t0 : float)
    (drift_velocity : option float) :
  exists x', snd (shift_position_x t0 drift_velocity self) =
             with_position_x self x'.
Proof.
  unfold shift_position_x, bind, lift, Get.position_x, Get.drift_direction,
    Set_.position_x, Py.mul_optfloat_float, Py.mul_float_optint.
  destruct drift_velocity as [v|]; cbn [snd];
    [|exists (_position_x self); symmetry; apply with_position_x_same].
  destruct (_drift_direction self) as [d|]; cbn [snd rbind];
    [|exists (_position_x self); symmetry; apply with_position_x_same].
  destruct (Py.int_to_float d) as [f|e]; cbn [snd rbind];
    [eexists; reflexivity|].
  exists (_position_x self); symmetry; apply with_position_x_same.
Qed.

(** The default of [drift_velocity] was fixed at import and is [None],
    however often [V_DRIFT] is rebound. *)
Lemma rebinding_keeps_default (vs : list (option float)) (m : module_state) :
  shift_position_x_default (fold_left rebind_V_DRIFT vs m) =
  shift_position_x_default m.
Proof.
  revert m. induction vs as [|v vs IH]; intros m; [reflexivity|].
  cbn [fold_left]. rewrite IH. reflexivity.
Qed.

Lemma configured_default (vs : list (option float)) :
  shift_position_x_default (configured vs) = None.
Proof. unfold configured. rewrite rebinding_keeps_default. reflexivity. Qed.

(** C2: on a point whose drift direction is [+1] or [-1] a shift stores
    the old [position_x] plus [drift_velocity * t0 * drift_direction];
    from 100.0 with [t0 = 2.0] and velocity 0.5 the new position is 101.0
    for direction [+1] and 99.0 for direction [-1]. *)
Theorem shift_position_x_formula (self : TrackPoint) (t0 v : float) :
  (_drift_direction self = Some 1%Z ->
   shift_position_x t0 (Some v) self =
     (Ok tt, with_position_x self (_position_x self + v * t0 * 1))) /\
  (_drift_direction self = Some (-1)%Z ->
   shift_position_x t0 (Some v) self =
     (Ok tt, with_position_x self (_position_x self + v * t0 * -1))) /\
  (_position_x self = 100 -> _drift_direction self = Some 1%Z ->
   shift_position_x 2 (Some 0.5) self = (Ok tt, with_position_x self 101)) /\
  (_position_x self = 100 -> _drift_direction self = Some (-1)%Z ->
   shift_position_x 2 (Some 0.5) self = (Ok tt, with_position_x self 99)).
Proof.
  repeat split.
  - intros Hd. exact (shift_position_x_ok self t0 v 1 1 Hd eq_refl).
  - intros Hd. exact (shift_position_x_ok self t0 v (-1) (-1) Hd eq_refl).
  - intros Hx Hd.
    rewrite (shift_position_x_ok self 2 0.5 1 1 Hd eq_refl), Hx. reflexivity.
  - intros Hx Hd.
    rewrite (shift_position_x_ok self 2 0.5 (-1) (-1) Hd eq_refl), Hx.
    reflexivity.
Qed.

Lemma shift_position_x_formula_witness :
  shift_position_x 2 (Some 0.5) (mkTrackPoint 4 100 5 6 0 0 1 (Some 1%Z)) =
    (Ok tt, mkTrackPoint 4 101 5 6 0 0 1 (Some 1%Z)) /\
  shift_position_x 2 (Some 0.5) (mkTrackPoint 4 100 5 6 0 0 1 (Some (-1)%Z)) =
    (Ok tt, mkTrackPoint 4 99 5 6 0 0 1 (Some (-1)%Z)).
Proof.
  split.
  - destruct (shift_position_x_formula
                (mkTrackPoint 4 100 5 6 0 0 1 (Some 1%Z)) 2 0.5)
      as (_ & _ & H & _).
    apply H; reflexivity.
  - destruct (shift_position_x_formula
                (mkTrackPoint 4 100 5 6 0 0 1 (Some (-1)%Z)) 2 0.5)
      as (_ & _ & _ & H).
    apply H; reflexivity.
Defined.

(** C4: on a point without a drift direction every call of
    [shift_position_x], with a velocity given or left out, raises an
    exception (a [TypeError]); the point, its [position_x] included, is
    left as it was. *)
Theorem shift_without_direction_raises (m : module_state) (t0 : float)
    (drift_velocity : argument (option float)) (self : TrackPoint) :
  _drift_direction self = None ->
  call_shift_position_x m t0 drift_velocity self = (Raise TypeError, self).
Proof.
  intros Hd. unfold call_shift_position_x.
  apply shift_position_x_no_direction. exact Hd.
Qed.

Lemma shift_without_direction_raises_witness :
  call_shift_position_x import_module 2 (Given (Some 0.5))
    (mkTrackPoint 4 0 5 6 0 0 1 None) =
    (Raise TypeError, mkTrackPoint 4 0 5 6 0 0 1 None).
Proof.
  apply (shift_without_direction_raises import_module 2 (Given (Some 0.5))
           (mkTrackPoint 4 0 5 6 0 0 1 None)).
  reflexivity.
Defined.

(** A run of calls adds the terms [drift_velocity * t0 * drift_direction]
    to the position one by one, for the direction read as the double [f]. *)
Lemma shift_each_ok (d : Z) (f : float) (calls : list (float * float)) :
  Py.int_to_float d = Ok f ->
  forall self, _drift_direction self = Some d ->
  shift_each calls self =
    (Ok tt, with_position_x self
              (fold_left PrimFloat.add
                 (map (fun '(t0, v) => v * t0 * f) calls)
                 (_position_x self))).
Proof.
  intros Hf. induction calls as [|[t0 v] calls IH]; intros self Hd.
  - cbn. rewrite with_position_x_same. reflexivity.
  - cbn [shift_each]. unfold bind at 1.
    rewrite (shift_position_x_ok self t0 v d f Hd Hf).
    rewrite IH by exact Hd. reflexivity.
Qed.

(** C5: calls of [shift_position_x] made one after the other each start
    from the position the previous one stored: on a point with drift
    direction [+1] (or [-1]) the run returns, and the final [position_x]
    is the first one with the terms [drift_velocity * t0 *
    drift_direction] of the calls added to it in turn; two calls with
    [t0 = 1.0] and velocity 1.0 from 0.0 with direction [+1] end at 2.0. *)
Theorem repeated_shifts_add_up (self : TrackPoint)
    (calls : list (float * float)) :
  (_drift_direction self = Some 1%Z ->
   shift_each calls self =
     (Ok tt, with_position_x self
               (fold_left PrimFloat.add
                  (map (fun '(t0, v) => v * t0 * 1) calls)
                  (_position_x self)))) /\
  (_drift_direction self = Some (-1)%Z ->
   shift_each calls self =
     (Ok tt, with_position_x self
               (fold_left PrimFloat.add
                  (map (fun '(t0, v) => v * t0 * -1) calls)
                  (_position_x self)))) /\
  (_position_x self = 0 -> _drift_direction self = Some 1%Z ->
   (shift_position_x 1 (Some 1) ;;; shift_position_x 1 (Some 1)) self =
     (Ok tt, with_position_x self 2)).
Proof.
  repeat split.
  - intros Hd. exact (shift_each_ok 1 1 calls eq_refl self Hd).
  - intros Hd. exact (shift_each_ok (-1) (-1) calls eq_refl self Hd).
  - intros Hx Hd. unfold bind.
    pose proof (shift_position_x_ok self 1 1 1 1 Hd eq_refl) as E1.
    rewrite E1.
    pose proof (shift_position_x_ok
                  (with_position_x self (_position_x self + 1 * 1 * 1))
                  1 1 1 1 Hd eq_refl) as E2.
    rewrite E2. cbn [with_position_x _position_x]. rewrite Hx. reflexivity.
Qed.

Lemma repeated_shifts_add_up_witness :
  shift_each [(1, 1); (1, 1)] (mkTrackPoint 4 0 5 6 0 0 1 (Some 1%Z)) =
    (Ok tt, mkTrackPoint 4 2 5 6 0 0 1 (Some 1%Z)) /\
  shift_each [(2, 0.5); (4, 0.25); (1, 3)]
    (mkTrackPoint 4 100 5 6 0 0 1 (Some (-1)%Z)) =
    (Ok tt, mkTrackPoint 4 95 5 6 0 0 1 (Some (-1)%Z)).
Proof.
  split.
  - destruct (repeated_shifts_add_up
                (mkTrackPoint 4 0 5 6 0 0 1 (Some 1%Z)) [(1, 1); (1, 1)])
      as (H & _).
    apply H; reflexivity.
  - destruct (repeated_shifts_add_up
                (mkTrackPoint 4 100 5 6 0 0 1 (Some (-1)%Z))
                [(2, 0.5); (4, 0.25); (1, 3)])
      as (_ & H & _).
    apply H; reflexivity.
Defined.

(** C6: a call of [shift_position_x] writes [position_x] only: the point
    it leaves has the [track_id], [position_y], [position_z], direction
    vector and [drift_direction] it found, so the drift direction is not
    derived again from the new position.  A point at 200.0 with direction
    [+1] shifted to 220.0 keeps [+1], though a point built at 220.0 gets
    [-1]. *)
Theorem shift_writes_position_x_only (m : module_state) (t0 : float)
    (drift_velocity : argument (option float)) (self self' : TrackPoint)
    (r : result unit) :
  call_shift_position_x m t0 drift_velocity self = (r, self') ->
  (_track_id self' = _track_id self /\
   _position_y self' = _position_y self /\
   _position_z self' = _position_z self /\
   _direction_x self' = _direction_x self /\
   _direction_y self' = _direction_y self /\
   _direction_z self' = _direction_z self /\
   _drift_direction self' = _drift_direction self) /\
  (call_shift_position_x m 40 (Given (Some 0.5))
     (mkTrackPoint 4 200 5 6 0 0 1 (Some 1%Z)) =
     (Ok tt, mkTrackPoint 4 220 5 6 0 0 1 (Some 1%Z)) /\
   _get_drift_direction 220 = Ok (Some (-1)%Z)).
Proof.
  intros H. split; [|split; reflexivity].
  unfold call_shift_position_x in H.
  destruct (shift_position_x_frame self t0
              match drift_velocity with
              | Given v => v
              | Omitted => shift_position_x_default m
              end) as [x' Hx'].
  rewrite H in Hx'. cbn [snd] in Hx'. subst self'.
  repeat split.
Qed.

Lemma shift_writes_position_x_only_witness :
  _track_id (mkTrackPoint 4 101 5 6 0 0 1 (Some 1%Z)) = 4%Z /\
  _position_y (mkTrackPoint 4 101 5 6 0 0 1 (Some 1%Z)) = 5 /\
  _drift_direction (mkTrackPoint 4 101 5 6 0 0 1 (Some 1%Z)) = Some 1%Z.
Proof.
  destruct (shift_writes_position_x_only import_module 2 (Given (Some 0.5))
              (mkTrackPoint 4 100 5 6 0 0 1 (Some 1%Z))
              (mkTrackPoint 4 101 5 6 0 0 1 (Some 1%Z)) (Ok tt) eq_refl)
    as ((H1 & H2 & _ & _ & _ & _ & H7) & _).
  exact (conj H1 (conj H2 H7)).
Defined.

End Shift.

(** ** Attributes written after construction *)

Section Staleness.

Local Open Scope float_scope.

(** C7: [__init__] derives [drift_direction] from the [position_x] it is
    given, and the [position_x] setter is a plain write: it stores the
    value and leaves every other attribute, [drift_direction] included,
    as it was.  A point built at 100.0 (direction [+1]) and moved to
    -100.0 through the setter keeps [+1], though a point built at -100.0
    gets [-1]. *)
Theorem drift_direction_not_recomputed (track_id : Z)
    (x y z dx dy dz value : float) (self : TrackPoint) :
  (exists d,
     _get_drift_direction x = Ok d /\
     __init__ track_id x y z dx dy dz =
       Ok (mkTrackPoint track_id x y z dx dy dz d)) /\
  Set_.position_x value self =
    (Ok tt,
     mkTrackPoint (_track_id self) value (_position_y self)
       (_position_z self) (_direction_x self) (_direction_y self)
       (_direction_z self) (_drift_direction self)) /\
  (__init__ track_id 100 y z dx dy dz =
     Ok (mkTrackPoint track_id 100 y z dx dy dz (Some 1%Z)) /\
   Set_.position_x (-100) (mkTrackPoint track_id 100 y z dx dy dz (Some 1%Z)) =
     (Ok tt, mkTrackPoint track_id (-100) y z dx dy dz (Some 1%Z)) /\
   _get_drift_direction (-100) = Ok (Some (-1)%Z)).
Proof.
  split; [|split; [reflexivity|repeat split]].
  destruct (point_region_total x) as [r Hr].
  exists (region_drift_direction r). split.
  - exact (_get_drift_direction_of_region x r Hr).
  - exact (__init___of_region r track_id x y z dx dy dz Hr).
Qed.

End Staleness.

(** ** The default drift velocity *)

Section DefaultVelocity.

Local Open Scope float_scope.

(** C8, as the code has it: while [V_DRIFT] is unset ([None]), a call of
    [shift_position_x] that leaves the drift velocity out runs with [None]
    as the velocity, as if the unset [V_DRIFT] had been passed: no other
    velocity takes its place, the product raises [TypeError] at the call,
    and the point is left as it was. *)
Theorem unset_default_velocity_raises_type_error (vs : list (option float))
    (t0 : float) (self : TrackPoint) :
  V_DRIFT (configured vs) = None ->
  call_shift_position_x (configured vs) t0 Omitted self =
    call_shift_position_x (configured vs) t0
      (Given (V_DRIFT (configured vs))) self /\
  call_shift_position_x (configured vs) t0 Omitted self =
    (Raise TypeError, self).
Proof.
  intros H. unfold call_shift_position_x.
  rewrite H, configured_default.
  split; [reflexivity|apply shift_position_x_no_velocity].
Qed.

Lemma unset_default_velocity_raises_type_error_witness :
  V_DRIFT (configured []) = None /\
  call_shift_position_x (configured []) 2 Omitted
    (mkTrackPoint 4 100 5 6 0 0 1 (Some 1%Z)) =
    (Raise TypeError, mkTrackPoint 4 100 5 6 0 0 1 (Some 1%Z)).
Proof.
  split; [reflexivity|].
  apply (unset_default_velocity_raises_type_error [] 2
           (mkTrackPoint 4 100 5 6 0 0 1 (Some 1%Z))).
  reflexivity.
Defined.

(** C8, as the spec has it, fails: the exception is no configuration
    error.  No exception that the call raises for the unset default sets
    that failure apart, neither from the failure of a call that is given
    a velocity on a point without drift direction, nor from the same call
    made after [V_DRIFT] was set to 0.16. *)
Lemma unset_default_error_is_not_specific :
  ~ exists e : exn,
      call_shift_position_x import_module 2 Omitted
        (mkTrackPoint 4 100 5 6 0 0 1 (Some 1%Z)) =
        (Raise e, mkTrackPoint 4 100 5 6 0 0 1 (Some 1%Z)) /\
      (call_shift_position_x import_module 2 (Given (Some 0.5))
         (mkTrackPoint 4 100 5 6 0 0 1 None) <>
         (Raise e, mkTrackPoint 4 100 5 6 0 0 1 None) \/
       call_shift_position_x (configured [Some 0.16]) 2 Omitted
         (mkTrackPoint 4 100 5 6 0 0 1 (Some 1%Z)) <>
         (Raise e, mkTrackPoint 4 100 5 6 0 0 1 (Some 1%Z))).
Proof.
  intros [e [H [N|N]]]; injection H as <-; apply N; reflexivity.
Qed.

(** C10: the default of [drift_velocity] is the value [V_DRIFT] had at
    import, [None]; rebinding [V_DRIFT] afterwards does not change it, so
    a call that leaves the velocity out raises [TypeError] on every point
    and after every configuration, also on a point with drift direction
    [+1] after [V_DRIFT] was set to 0.16, where passing that velocity
    explicitly shifts the point. *)
Theorem default_velocity_fixed_at_import (vs : list (option float))
    (t0 : float) (self : TrackPoint) :
  shift_position_x_default (configured vs) = None /\
  call_shift_position_x (configured vs) t0 Omitted self =
    (Raise TypeError, self) /\
  (V_DRIFT (configured [Some 0.16]) = Some 0.16 /\
   call_shift_position_x (configured [Some 0.16]) 100 Omitted
     (mkTrackPoint 4 100 5 6 0 0 1 (Some 1%Z)) =
     (Raise TypeError, mkTrackPoint 4 100 5 6 0 0 1 (Some 1%Z)) /\
   call_shift_position_x (configured [Some 0.16]) 100
     (Given (V_DRIFT (configured [Some 0.16])))
     (mkTrackPoint 4 100 5 6 0 0 1 (Some 1%Z)) =
     (Ok tt, mkTrackPoint 4 116 5 6 0 0 1 (Some 1%Z))).
Proof.
  split; [apply configured_default|]. split; [|repeat split].
  unfold call_shift_position_x.
  rewrite configured_default. apply shift_position_x_no_velocity.
Qed.

End DefaultVelocity.

(** * Further properties *)

(** ** More on the order of binary64 numbers *)

Module FloatFacts.

Ltac by_cases :=
  repeat match goal with
    | x : spec_float |- _ => destruct x as [[|]|[|]| |[|] ? ?]
    end;
  cbn [SFopp SFcompare negb]; fold Pos.compare;
  try discriminate; try reflexivity;
  FloatOrder.split_compare; cbn [CompOpp]; intros;
  try discriminate; try reflexivity; try lia.

Lemma SFle_lt_trans (a b c : spec_float) :
  SFleb a b = true -> SFltb b c = true -> SFltb a c = true.
Proof. unfold SFltb, SFleb. by_cases. Qed.

Lemma SFlt_le_trans (a b c : spec_float) :
  SFltb a b = true -> SFleb b c = true -> SFltb a c = true.
Proof. unfold SFltb, SFleb. by_cases. Qed.

Lemma SFlt_not_le (a b : spec_float) :
  SFltb a b = true -> SFleb b a = false.
Proof. unfold SFltb, SFleb. by_cases. Qed.

(** Two numbers that each compare with something are comparable. *)
Lemma SFnot_lt_le (x a c : spec_float) :
  SFltb x c = true -> SFleb a c = true ->
  SFltb x a = false -> SFleb a x = true.
Proof. unfold SFltb, SFleb. by_cases. Qed.

Lemma SFlt_opp (x b : spec_float) :
  SFltb (SFopp x) b = SFltb (SFopp b) x.
Proof. unfold SFltb. by_cases. Qed.

Lemma SFlt_opp_r (c x : spec_float) :
  SFltb c (SFopp x) = SFltb x (SFopp c).
Proof. unfold SFltb. by_cases. Qed.

Local Open Scope float_scope.

Lemma le_lt_trans (a b c : float) :
  (a <=? b) = true -> (b <? c) = true -> (a <? c) = true.
Proof. rewrite !ltb_spec, leb_spec. apply SFle_lt_trans. Qed.

Lemma lt_le_trans (a b c : float) :
  (a <? b) = true -> (b <=? c) = true -> (a <? c) = true.
Proof. rewrite !ltb_spec, leb_spec. apply SFlt_le_trans. Qed.

Lemma lt_not_le (a b : float) : (a <? b) = true -> (b <=? a) = false.
Proof. rewrite ltb_spec, leb_spec. apply SFlt_not_le. Qed.

Lemma not_lt_le (x a c : float) :
  (x <? c) = true -> (a <=? c) = true -> (x <? a) = false -> (a <=? x) = true.
Proof. rewrite !ltb_spec, !leb_spec. apply SFnot_lt_le. Qed.

Lemma lt_opp (x b : float) : (- x <? b) = (- b <? x).
Proof. rewrite !ltb_spec, !opp_spec. apply SFlt_opp. Qed.

Lemma lt_opp_r (c x : float) : (c <? - x) = (x <? - c).
Proof. rewrite !ltb_spec, !opp_spec. apply SFlt_opp_r. Qed.

End FloatFacts.

(** ** The enumeration *)

Section Enumeration.

(** X1: [TPCRegion(v)] and [.value] are inverse to each other: looking up
    the value of a member gives that member back, a successful lookup
    returns a member with the value asked for, and the lookup raises
    [ValueError] exactly for the ints outside 0..6.  Distinct members have
    distinct names, so comparing names tells the members apart. *)
Theorem region_value_round_trip (r r' : TPCRegion) (v : Z) :
  Region.of_value (Region.value r) = Ok r /\
  (Region.of_value v = Ok r -> Region.value r = v) /\
  (Region.of_value v = Raise ValueError <-> (v < 0 \/ 6 < v)%Z) /\
  (Region.name r = Region.name r' -> r = r').
Proof.
  split; [destruct r; reflexivity|]. split; [|split].
  - destruct v as [|p|p]; [| |discriminate].
    + intros H; injection H as <-; reflexivity.
    + destruct p as [[[?|?|]|[?|?|]|]|[[?|?|]|[?|?|]|]|]; try discriminate;
        intros H; injection H as <-; reflexivity.
  - split.
    + destruct v as [|p|p]; [discriminate| |lia].
      destruct p as [[[?|?|]|[?|?|]|]|[[?|?|]|[?|?|]|]|]; try discriminate; lia.
    + intros [H|H]; destruct v as [|p|p]; try lia; try reflexivity.
      destruct p as [[[?|?|]|[?|?|]|]|[[?|?|]|[?|?|]|]|]; try lia; reflexivity.
  - destruct r, r'; try reflexivity; discriminate.
Qed.

Lemma region_value_round_trip_witness :
  Region.value EW = 4%Z /\ Region.of_value 7 = Raise ValueError.
Proof.
  destruct (region_value_round_trip EW EW 4) as (_ & H & _).
  destruct (region_value_round_trip EW EW 7) as (_ & _ & [_ H'] & _).
  split; [apply H; reflexivity|apply H'; right; reflexivity].
Defined.

End Enumeration.

(** ** What a bin index says about the position *)

Section DigitizeConverse.

Local Open Scope float_scope.
Local Open Scope list_scope.
Import Numpy.

(** The index names the first edge above [x]: that edge is above [x] and
    none of the earlier ones is. *)
Lemma digitize_first (x b : float) (pre post : list float) :
  digitize x (pre ++ b :: post) = Z.of_nat (List.length pre) ->
  (x <? b) = true /\ forall c, In c pre -> (x <? c) = false.
Proof.
  induction pre as [|p pre IH]; cbn [app digitize List.length]; intros H.
  - pose proof (digitize_range x post).
    destruct (x <? b); [split; [reflexivity|intros c []]|lia].
  - pose proof (digitize_range x (pre ++ b :: post)).
    destruct (x <? p) eqn:Hp; [lia|].
    destruct IH as [Hb Hpre]; [lia|].
    split; [exact Hb|]. intros c [<-|Hc]; [exact Hp|exact (Hpre c Hc)].
Qed.

Lemma ascending_neighbours (a b : float) (pre post : list float) :
  ascending (pre ++ a :: b :: post) = true -> (a <=? b) = true.
Proof.
  intros H.
  change (pre ++ a :: b :: post) with (pre ++ [a] ++ b :: post) in H.
  rewrite app_assoc in H.
  apply (ascending_prefix_le _ _ _ H). apply in_or_app. right. left. reflexivity.
Qed.

(** The converse of the documented contract. *)
Lemma digitize_between_inv (x a b : float) (pre post : list float) :
  ascending (pre ++ a :: b :: post) = true ->
  digitize x (pre ++ a :: b :: post) = (Z.of_nat (List.length pre) + 1)%Z ->
  (a <=? x) = true /\ (x <? b) = true.
Proof.
  intros Hasc H.
  pose proof (ascending_neighbours _ _ _ _ Hasc) as Hab.
  change (pre ++ a :: b :: post) with (pre ++ [a] ++ b :: post) in H.
  rewrite app_assoc in H.
  destruct (digitize_first x b (pre ++ [a]) post) as [Hb Hpre].
  { rewrite H, length_app. cbn [List.length]. lia. }
  split; [|exact Hb].
  apply FloatFacts.not_lt_le with b; [exact Hb|exact Hab|].
  apply Hpre. apply in_or_app. right. left. reflexivity.
Qed.

(** The index does not decrease when the position increases. *)
Lemma digitize_monotone (x y : float) (bins : list float) :
  (x <=? y) = true -> (digitize x bins <= digitize y bins)%Z.
Proof.
  intros Hxy. induction bins as [|b bins IH]; cbn [digitize]; [lia|].
  destruct (y <? b) eqn:Hy.
  - rewrite (FloatFacts.le_lt_trans x y b Hxy Hy). lia.
  - pose proof (digitize_range x bins). destruct (x <? b); lia.
Qed.

End DigitizeConverse.

(** ** Regions read back from the classification *)

Section RegionsConverse.

Local Open Scope float_scope.
Local Open Scope list_scope.

Lemma of_value_inv (v : Z) (r : TPCRegion) :
  Region.of_value v = Ok r -> v = Region.value r.
Proof.
  destruct v as [|p|p]; [| |discriminate].
  - intros H; injection H as <-; reflexivity.
  - destruct p as [[[?|?|]|[?|?|]|]|[[?|?|]|[?|?|]|]|]; try discriminate;
      intros H; injection H as <-; reflexivity.
Qed.

(** An index equal to the number of edges means no edge is above [x]. *)
Lemma digitize_last (x : float) (bins : list float) :
  Numpy.digitize x bins = Z.of_nat (List.length bins) ->
  forall c, In c bins -> (x <? c) = false.
Proof.
  induction bins as [|b bins IH]; cbn [Numpy.digitize List.length];
    intros H c Hc; [destruct Hc|].
  pose proof (digitize_range x bins).
  destruct (x <? b) eqn:Hb; [lia|].
  destruct Hc as [<-|Hc]; [exact Hb|]. apply IH; [lia|exact Hc].
Qed.

(** Splits the list of boundaries after [pre] and reads the bin off. *)
Ltac read_bin x pre a b post H :=
  apply (digitize_between_inv x a b pre post);
    [reflexivity|exact (of_value_inv _ _ H)].

(** What the region of a point says about its position. *)
Lemma point_region_inv (x : float) :
  (point_region x = Ok WestOfWW -> (x <? -358.49) = true) /\
  (point_region x = Ok WW ->
     (-358.49 <=? x) = true /\ (x <? -210.215) = true) /\
  (point_region x = Ok WE ->
     (-210.215 <=? x) = true /\ (x <? -61.94) = true) /\
  (point_region x = Ok BetweenTPCs ->
     (-61.94 <=? x) = true /\ (x <? 61.94) = true) /\
  (point_region x = Ok EW ->
     (61.94 <=? x) = true /\ (x <? 210.215) = true) /\
  (point_region x = Ok EE ->
     (210.215 <=? x) = true /\ (x <? 358.49) = true) /\
  (point_region x = Ok EastOfEE -> (x <? 358.49) = false).
Proof.
  unfold point_region, TPC_X_BOUNDS. repeat apply conj; intros H.
  - exact (proj1 (digitize_first x (-358.49) (@nil float)
                    [-210.215; -61.94; 61.94; 210.215; 358.49]
                    (of_value_inv _ _ H))).
  - read_bin x (@nil float) (-358.49) (-210.215)
      [-61.94; 61.94; 210.215; 358.49] H.
  - read_bin x [-358.49] (-210.215) (-61.94) [61.94; 210.215; 358.49] H.
  - read_bin x [-358.49; -210.215] (-61.94) 61.94 [210.215; 358.49] H.
  - read_bin x [-358.49; -210.215; -61.94] 61.94 210.215 [358.49] H.
  - read_bin x [-358.49; -210.215; -61.94; 61.94] 210.215 358.49 (@nil float) H.
  - apply (digitize_last x _ (of_value_inv _ _ H)).
    do 5 right. left. reflexivity.
Qed.

End RegionsConverse.

(** ** The drift direction as a function of the position *)

Section DriftDirection.

Local Open Scope float_scope.

Lemma drift_direction_of_point (x : float) :
  exists r, point_region x = Ok r /\
            _get_drift_direction x = Ok (region_drift_direction r).
Proof.
  destruct (point_region_total x) as [r Hr]. exists r.
  split; [exact Hr|exact (_get_drift_direction_of_region x r Hr)].
Qed.

(** X2: the drift direction of a position is [+1] exactly on the two
    half-open intervals [-358.49, -210.215) and [61.94, 210.215), it is
    [-1] exactly on [-210.215, -61.94) and [210.215, 358.49), and it is
    [None] exactly for every other float, NaN and the infinities
    included. *)
Theorem drift_direction_exact (x : float) :
  (_get_drift_direction x = Ok (Some 1%Z) <->
   ((-358.49 <=? x) && (x <? -210.215) || (61.94 <=? x) && (x <? 210.215))
   = true) /\
  (_get_drift_direction x = Ok (Some (-1)%Z) <->
   ((-210.215 <=? x) && (x <? -61.94) || (210.215 <=? x) && (x <? 358.49))
   = true) /\
  (_get_drift_direction x = Ok None <->
   ((-358.49 <=? x) && (x <? -210.215) || (61.94 <=? x) && (x <? 210.215))
   = false /\
   ((-210.215 <=? x) && (x <? -61.94) || (210.215 <=? x) && (x <? 358.49))
   = false).
Proof.
  destruct (point_region_bins x) as (_ & B1 & B2 & _ & B4 & B5 & _).
  destruct (point_region_inv x) as (_ & I1 & I2 & _ & I4 & I5 & _).
  assert (P : _get_drift_direction x = Ok (Some 1%Z) <->
              ((-358.49 <=? x) && (x <? -210.215)
               || (61.94 <=? x) && (x <? 210.215)) = true).
  { split.
    - intros H. destruct (drift_direction_of_point x) as (r & Hr & Hd).
      rewrite Hd in H. destruct r; try discriminate H.
      + destruct (I1 Hr) as [-> ->]. reflexivity.
      + destruct (I4 Hr) as [-> ->]. apply orb_true_r.
    - intros H. apply orb_prop in H.
      destruct H as [H|H]; apply andb_prop in H; destruct H as [Ha Hb].
      + exact (_get_drift_direction_of_region x WW (B1 Ha Hb)).
      + exact (_get_drift_direction_of_region x EW (B4 Ha Hb)). }
  assert (N : _get_drift_direction x = Ok (Some (-1)%Z) <->
              ((-210.215 <=? x) && (x <? -61.94)
               || (210.215 <=? x) && (x <? 358.49)) = true).
  { split.
    - intros H. destruct (drift_direction_of_point x) as (r & Hr & Hd).
      rewrite Hd in H. destruct r; try discriminate H.
      + destruct (I2 Hr) as [-> ->]. reflexivity.
      + destruct (I5 Hr) as [-> ->]. apply orb_true_r.
    - intros H. apply orb_prop in H.
      destruct H as [H|H]; apply andb_prop in H; destruct H as [Ha Hb].
      + exact (_get_drift_direction_of_region x WE (B2 Ha Hb)).
      + exact (_get_drift_direction_of_region x EE (B5 Ha Hb)). }
  split; [exact P|]. split; [exact N|].
  destruct (drift_direction_of_point x) as (r & Hr & Hd).
  split.
  - intros H. split; apply not_true_is_false; intros C.
    + apply P in C. rewrite H in C. discriminate C.
    + apply N in C. rewrite H in C. discriminate C.
  - intros [C1 C2]. rewrite Hd. rewrite Hd in P, N.
    destruct r; cbn [region_drift_direction] in *; try reflexivity.
    + rewrite (proj1 P eq_refl) in C1. discriminate C1.
    + rewrite (proj1 N eq_refl) in C2. discriminate C2.
    + rewrite (proj1 P eq_refl) in C1. discriminate C1.
    + rewrite (proj1 N eq_refl) in C2. discriminate C2.
Qed.

Lemma drift_direction_exact_witness :
  _get_drift_direction 100 = Ok (Some 1%Z) /\
  _get_drift_direction nan = Ok None.
Proof.
  split.
  - apply (proj1 (drift_direction_exact 100)). reflexivity.
  - apply (proj2 (proj2 (drift_direction_exact nan))). split; reflexivity.
Defined.

(** X3: the regions are ordered along x: when [x <= y], the region of [x]
    has a value (its rank from west of WW to east of EE) no larger than
    that of the region of [y]. *)
Theorem regions_ordered (x y : float) (rx ry : TPCRegion) :
  (x <=? y) = true ->
  point_region x = Ok rx -> point_region y = Ok ry ->
  (Region.value rx <= Region.value ry)%Z.
Proof.
  intros Hxy Hx Hy. unfold point_region in Hx, Hy.
  rewrite <- (of_value_inv _ _ Hx), <- (of_value_inv _ _ Hy).
  apply digitize_monotone. exact Hxy.
Qed.

Lemma regions_ordered_witness :
  (Region.value WE <= Region.value EE)%Z.
Proof.
  apply (regions_ordered (-100) 300 WE EE); reflexivity.
Defined.

End DriftDirection.

(** ** The two cryostats mirror each other *)

Section Mirror.

Local Open Scope float_scope.

(** The region of [-x], for [x] strictly inside a region. *)
Lemma point_region_mirror (x : float) :
  ((x <? -358.49) = true -> point_region (- x) = Ok EastOfEE) /\
  ((-358.49 <? x) = true -> (x <? -210.215) = true ->
   point_region (- x) = Ok EE) /\
  ((-210.215 <? x) = true -> (x <? -61.94) = true ->
   point_region (- x) = Ok EW) /\
  ((-61.94 <? x) = true -> (x <? 61.94) = true ->
   point_region (- x) = Ok BetweenTPCs) /\
  ((61.94 <? x) = true -> (x <? 210.215) = true ->
   point_region (- x) = Ok WE) /\
  ((210.215 <? x) = true -> (x <? 358.49) = true ->
   point_region (- x) = Ok WW) /\
  ((358.49 <? x) = true -> point_region (- x) = Ok WestOfWW).
Proof.
  destruct (point_region_bins (- x)) as (B0 & B1 & B2 & B3 & B4 & B5 & B6).
  repeat apply conj.
  - intros H. apply B6. apply FloatOrder.lt_le.
    rewrite FloatFacts.lt_opp_r. exact H.
  - intros Hlo Hhi. apply B5.
    + apply FloatOrder.lt_le. rewrite FloatFacts.lt_opp_r. exact Hhi.
    + rewrite FloatFacts.lt_opp. exact Hlo.
  - intros Hlo Hhi. apply B4.
    + apply FloatOrder.lt_le. rewrite FloatFacts.lt_opp_r. exact Hhi.
    + rewrite FloatFacts.lt_opp. exact Hlo.
  - intros Hlo Hhi. apply B3.
    + apply FloatOrder.lt_le. rewrite FloatFacts.lt_opp_r. exact Hhi.
    + rewrite FloatFacts.lt_opp. exact Hlo.
  - intros Hlo Hhi. apply B2.
    + apply FloatOrder.lt_le. rewrite FloatFacts.lt_opp_r. exact Hhi.
    + rewrite FloatFacts.lt_opp. exact Hlo.
  - intros Hlo Hhi. apply B1.
    + apply FloatOrder.lt_le. rewrite FloatFacts.lt_opp_r. exact Hhi.
    + rewrite FloatFacts.lt_opp. exact Hlo.
  - intros H. apply B0. rewrite FloatFacts.lt_opp. exact H.
Qed.

(** A position off an edge that is not below it is above it. *)
Lemma strictly_above (x b : float) :
  ((x <? b) || (b <? x)) = true -> (x <? b) = false -> (b <? x) = true.
Proof. intros H E. rewrite E in H. exact H. Qed.

(** X4: the boundaries are symmetric about x = 0 and the drift directions
    antisymmetric: for a position that lies on none of the six boundaries
    (and is not NaN), the mirrored position [-x] gets the opposite drift
    direction, [-1] for [+1], [+1] for [-1] and [None] for [None]. *)
Theorem mirrored_position_drifts_opposite (x : float) :
  forallb (fun b => (x <? b) || (b <? x)) TPC_X_BOUNDS = true ->
  exists d, _get_drift_direction x = Ok d /\
            _get_drift_direction (- x) = Ok (option_map Z.opp d).
Proof.
  cbn [forallb TPC_X_BOUNDS]. intros H.
  repeat (apply andb_prop in H; destruct H as [?H H]). clear H.
  destruct (drift_direction_of_point x) as (r & Hr & Hd).
  exists (region_drift_direction r). split; [exact Hd|].
  destruct (point_region_inv x) as (I0 & I1 & I2 & I3 & I4 & I5 & I6).
  destruct (point_region_mirror x) as (M0 & M1 & M2 & M3 & M4 & M5 & M6).
  destruct r; cbn [region_drift_direction option_map Z.opp].
  - exact (_get_drift_direction_of_region _ _ (M0 (I0 Hr))).
  - destruct (I1 Hr) as [Hlo Hhi].
    refine (_get_drift_direction_of_region _ _ (M1 _ Hhi)).
    apply strictly_above; [assumption|apply FloatOrder.le_not_lt; exact Hlo].
  - destruct (I2 Hr) as [Hlo Hhi].
    refine (_get_drift_direction_of_region _ _ (M2 _ Hhi)).
    apply strictly_above; [assumption|apply FloatOrder.le_not_lt; exact Hlo].
  - destruct (I3 Hr) as [Hlo Hhi].
    refine (_get_drift_direction_of_region _ _ (M3 _ Hhi)).
    apply strictly_above; [assumption|apply FloatOrder.le_not_lt; exact Hlo].
  - destruct (I4 Hr) as [Hlo Hhi].
    refine (_get_drift_direction_of_region _ _ (M4 _ Hhi)).
    apply strictly_above; [assumption|apply FloatOrder.le_not_lt; exact Hlo].
  - destruct (I5 Hr) as [Hlo Hhi].
    refine (_get_drift_direction_of_region _ _ (M5 _ Hhi)).
    apply strictly_above; [assumption|apply FloatOrder.le_not_lt; exact Hlo].
  - refine (_get_drift_direction_of_region _ _ (M6 _)).
    apply strictly_above; [assumption|exact (I6 Hr)].
Qed.

Lemma mirrored_position_drifts_opposite_witness :
  exists d, _get_drift_direction 100 = Ok d /\
            _get_drift_direction (- (100)) = Ok (option_map Z.opp d).
Proof.
  apply (mirrored_position_drifts_opposite 100). reflexivity.
Defined.

End Mirror.

(** ** Shifts, failures and overrides *)

Section ShiftOutcomes.

Local Open Scope float_scope.

(** X5: on a point as [__init__] builds it, a shift with a float velocity
    has one of three outcomes decided by the position the point was built
    at: it adds [drift_velocity * t0] times [+1], or times [-1], or, for a
    point outside the four TPC volumes, raises [TypeError] and leaves the
    point alone.  Construction never fails, and such a shift never raises
    [OverflowError] or [ValueError]. *)
Theorem shift_of_built_point (track_id : Z) (x y z dx dy dz t0 v : float) :
  exists p,
    __init__ track_id x y z dx dy dz = Ok p /\
    ((_get_drift_direction x = Ok (Some 1%Z) /\
      shift_position_x t0 (Some v) p =
        (Ok tt, with_position_x p (x + v * t0 * 1))) \/
     (_get_drift_direction x = Ok (Some (-1)%Z) /\
      shift_position_x t0 (Some v) p =
        (Ok tt, with_position_x p (x + v * t0 * -1))) \/
     (_get_drift_direction x = Ok None /\
      shift_position_x t0 (Some v) p = (Raise TypeError, p))).
Proof.
  destruct (drift_direction_of_point x) as (r & Hr & Hd).
  exists (mkTrackPoint track_id x y z dx dy dz (region_drift_direction r)).
  split; [exact (__init___of_region r track_id x y z dx dy dz Hr)|].
  rewrite Hd.
  set (p := mkTrackPoint track_id x y z dx dy dz (region_drift_direction r)).
  assert (Hp : _drift_direction p = region_drift_direction r) by reflexivity.
  change x with (_position_x p).
  clearbody p. clear Hr Hd.
  destruct r; cbn [region_drift_direction] in *;
    first
      [ left; split; [reflexivity|];
        exact (shift_position_x_ok p t0 v 1 1 Hp eq_refl)
      | right; left; split; [reflexivity|];
        exact (shift_position_x_ok p t0 v (-1) (-1) Hp eq_refl)
      | right; right; split; [reflexivity|];
        exact (shift_position_x_no_direction p t0 (Some v) Hp) ].
Qed.

(** X6: a shift that raises has written nothing: the point is exactly as
    before the call.  The exception is [TypeError] when the velocity or
    the drift direction is [None], and [OverflowError] when the drift
    direction is an int too large for a double; no other exception
    occurs. *)
Theorem failed_shift_writes_nothing (t0 : float)
    (drift_velocity : option float) (self self' : TrackPoint) (e : exn) :
  shift_position_x t0 drift_velocity self = (Raise e, self') ->
  self' = self /\
  ((e = TypeError /\
    (drift_velocity = None \/ _drift_direction self = None)) \/
   (e = OverflowError /\
    exists d, _drift_direction self = Some d /\
              Py.int_to_float d = Raise OverflowError)).
Proof.
  unfold shift_position_x, bind, lift, Get.position_x, Get.drift_direction,
    Set_.position_x, Py.mul_optfloat_float, Py.mul_float_optint.
  destruct drift_velocity as [v|].
  - destruct (_drift_direction self) as [d|] eqn:Hd.
    + cbn [rbind]. destruct (Py.int_to_float d) as [f|e'] eqn:Hf; cbn [rbind].
      * discriminate.
      * intros H. injection H as <- <-. split; [reflexivity|]. right.
        assert (He : e' = OverflowError).
        { unfold Py.int_to_float in Hf.
          destruct (binary_normalize prec emax d 0 false);
            try discriminate Hf. injection Hf as <-. reflexivity. }
        subst e'. split; [reflexivity|]. exists d. split; [reflexivity|exact Hf].
    + intros H. injection H as <- <-. split; [reflexivity|].
      left. split; [reflexivity|]. right. reflexivity.
  - intros H. injection H as <- <-. split; [reflexivity|].
    left. split; [reflexivity|]. left. reflexivity.
Qed.

Lemma failed_shift_writes_nothing_witness :
  shift_position_x 2 (Some 0.5)
    (mkTrackPoint 4 0 5 6 0 0 1 (Some (2 ^ 1024)%Z)) =
    (Raise OverflowError, mkTrackPoint 4 0 5 6 0 0 1 (Some (2 ^ 1024)%Z)) /\
  mkTrackPoint 4 0 5 6 0 0 1 (Some (2 ^ 1024)%Z) =
  mkTrackPoint 4 0 5 6 0 0 1 (Some (2 ^ 1024)%Z).
Proof.
  split; [reflexivity|].
  exact (proj1 (failed_shift_writes_nothing 2 (Some 0.5)
                  (mkTrackPoint 4 0 5 6 0 0 1 (Some (2 ^ 1024)%Z))
                  (mkTrackPoint 4 0 5 6 0 0 1 (Some (2 ^ 1024)%Z))
                  OverflowError eq_refl)).
Defined.

(** X7: the [drift_direction] setter overrides what construction derived,
    and the next shift uses the override: after storing an int direction
    the shift adds [drift_velocity * t0] times that int (as a double) and
    keeps the stored direction; after storing [None] it raises
    [TypeError], the direction staying [None] and the position
    untouched. *)
Theorem overridden_direction_is_used (self : TrackPoint) (t0 v : float)
    (d : Z) (f : float) :
  Py.int_to_float d = Ok f ->
  (Set_.drift_direction (Some d) ;;; shift_position_x t0 (Some v)) self =
    (Ok tt,
     mkTrackPoint (_track_id self) (_position_x self + v * t0 * f)
       (_position_y self) (_position_z self) (_direction_x self)
       (_direction_y self) (_direction_z self) (Some d)) /\
  (Set_.drift_direction None ;;; shift_position_x t0 (Some v)) self =
    (Raise TypeError,
     mkTrackPoint (_track_id self) (_position_x self)
       (_position_y self) (_position_z self) (_direction_x self)
       (_direction_y self) (_direction_z self) None).
Proof.
  intros Hf. split.
  - unfold bind at 1. cbn [Set_.drift_direction].
    pose proof (shift_position_x_ok
                  (mkTrackPoint (_track_id self) (_position_x self)
                     (_position_y self) (_position_z self)
                     (_direction_x self) (_direction_y self)
                     (_direction_z self) (Some d))
                  t0 v d f eq_refl Hf) as E.
    rewrite E. reflexivity.
  - unfold bind at 1. cbn [Set_.drift_direction].
    apply shift_position_x_no_direction. reflexivity.
Qed.

Lemma overridden_direction_is_used_witness :
  (Set_.drift_direction (Some 1%Z) ;;; shift_position_x 2 (Some 0.5))
    (mkTrackPoint 4 0 5 6 0 0 1 None) =
  (Ok tt, mkTrackPoint 4 1 5 6 0 0 1 (Some 1%Z)).
Proof.
  exact (proj1 (overridden_direction_is_used
                  (mkTrackPoint 4 0 5 6 0 0 1 None) 2 0.5 1 1 eq_refl)).
Defined.

End ShiftOutcomes.

(** ** The accessors *)

Section Accessors.

Local Open Scope float_scope.

(** X8: each of the eight properties is a plain attribute: its getter
    reads back the value its setter stored, storing the value just read
    changes nothing, and of two writes to the same property the later one
    wins. *)
Theorem accessors_are_plain (self : TrackPoint)
    (i j : Z) (a b : float) (d d' : option Z) :
  let plain (A : Type) (get : M A) (set : A -> M unit) (u w : A) :=
    (set u ;;; get) self = (Ok u, snd (set u self)) /\
    (c <- get ;; set c) self = (Ok tt, self) /\
    (set u ;;; set w) self = set w self in
  plain Z Get.track_id Set_.track_id i j /\
  plain float Get.position_x Set_.position_x a b /\
  plain float Get.position_y Set_.position_y a b /\
  plain float Get.position_z Set_.position_z a b /\
  plain float Get.direction_x Set_.direction_x a b /\
  plain float Get.direction_y Set_.direction_y a b /\
  plain float Get.direction_z Set_.direction_z a b /\
  plain (option Z) Get.drift_direction Set_.drift_direction d d'.
Proof.
  cbv zeta. destruct self. repeat split.
Qed.

End Accessors.
